(** * Jira issue-tracker integration of nuclei: description formatting and
      issue creation

    Shallow embedding of [v2/pkg/reporting/issues/jira/jira.go].

    Go strings are byte sequences and are modelled by [string] (a list of
    8-bit characters).  A [bytes.Buffer] is modelled by its contents, threaded
    through the calls of [WriteString] by a small state monad.  Go maps are
    [gmap]s; a [range] loop over a map visits every entry once in an order that
    the language leaves unspecified, so the order of each such loop is an
    explicit input ([Ranges]) constrained by [range_of].  The single remote
    call of [CreateIssue] is a node of a call tree ([Call]) that is
    interpreted against an arbitrary tracker.  The event and the options are
    passed by pointer in the source; both are taken to be non-nil, as the
    source takes them. *)

From Stdlib Require Import String Ascii List.
From stdpp Require Import gmap strings list fin_maps.

(** ** Go strings *)

Module gostring.

(** The line feed written [\n] in Go source, and the double quote. *)
Definition nl : string := String (ascii_of_nat 10) EmptyString.

(** Concatenation of a list of strings, left to right. *)
Fixpoint join (l : list string) : string :=
  match l with
  | [] => EmptyString
  | s :: l' => s +:+ join l'
  end.

(** [contains s t]: [t] occurs in [s] as a contiguous run of bytes. *)
Definition contains (s t : string) : Prop :=
  ∃ before after, s = before +:+ t +:+ after.

End gostring.

Import gostring.

(** ** [bytes.Buffer] *)

Module bytes.

(** The contents of a buffer; [&bytes.Buffer{}] is the empty buffer. *)
Definition Buffer : Type := string.
Definition empty : Buffer := EmptyString.

(** A computation that writes to the buffer it is run on. *)
Definition Builder (A : Type) : Type := Buffer → A * Buffer.

Definition ret {A} (a : A) : Builder A := λ b, (a, b).
Definition bind {A B} (m : Builder A) (k : A → Builder B) : Builder B :=
  λ b, let '(a, b') := m b in k a b'.

(** [builder.WriteString(s)] appends [s]. *)
Definition WriteString (s : string) : Builder unit := λ b, (tt, b +:+ s).

(** [for _, x := range l { body }] over a slice, or over the sequence in
    which a map's entries are visited. *)
Fixpoint for_range {A} (l : list A) (body : A → Builder unit) : Builder unit :=
  match l with
  | [] => ret tt
  | x :: l' => bind (body x) (λ _, for_range l' body)
  end.

(** [if c { body }] *)
Definition when (c : bool) (body : Builder unit) : Builder unit :=
  if c then body else ret tt.

(** [builder.String()] after running [m] on a fresh buffer. *)
Definition String_of (m : Builder unit) : string := snd (m empty).

End bytes.

Import bytes.

Declare Scope builder_scope.
Delimit Scope builder_scope with builder.
Notation "m1 ;; m2" := (bytes.bind m1 (λ _, m2))
  (at level 100, m2 at level 200, right associativity) : builder_scope.

(** [appends m s]: run on any buffer, [m] appends [s] to it and changes
    nothing else. *)
Definition appends (m : Builder unit) (s : string) : Prop :=
  ∀ b, m b = (tt, b +:+ s).

(** ** [fmt.Sprintf], for the verb [%s] applied to strings

    The two formats of the source hold no other verb; every other byte of
    a format is copied.  A missing operand is reported the way Go reports
    it.  The operands of the source's two calls are strings, but for one
    [error], which [%s] prints through its [Error] method (see
    [CreateIssue]). *)

Module fmt.

Fixpoint Sprintf (format : string) (args : list string) : string :=
  match format with
  | EmptyString => EmptyString
  | String "%" (String "s" rest) =>
      match args with
      | a :: args' => a +:+ Sprintf rest args'
      | [] => "%!s(MISSING)" +:+ Sprintf rest []
      end
  | String c rest => String c (Sprintf rest args)
  end.

End fmt.

(** ** Go errors

    An [error] is observed through its [Error] method only.  [fmt.Errorf]
    builds the error whose text is the formatted string. *)

Record error : Type := { Error : string }.

Definition Errorf (format : string) (args : list string) : error :=
  {| Error := fmt.Sprintf format args |}.

(** ** [output.ResultEvent]: the fields this file reads

    [Info] maps informational keys to text, [Metadata] maps keys to values
    of any type ([interface{}]); the type of timestamps and the type of
    metadata values are left open. *)

Module output.

Record ResultEvent {Time MetaValue : Type} : Type := {
  Type_ : string;
  Host : string;
  Matched : string;
  Request : string;
  Response : string;
  Info : gmap string string;
  ExtractedResults : list string;
  Timestamp : Time;
  Metadata : gmap string MetaValue;
}.
Global Arguments ResultEvent : clear implicits.

End output.

(** ** Collaborators outside this file

    [format.Summary], [format.GetMatchedTemplate] and [types.ToString] belong
    to other packages of the repository; [strings.ToUpper] and [Time.Format]
    to Go's standard library.  All are pure functions of their arguments. *)

Class Collaborators (Time MetaValue : Type) : Type := {
  format_Summary : output.ResultEvent Time MetaValue → string;
  format_GetMatchedTemplate : output.ResultEvent Time MetaValue → string;
  types_ToString : MetaValue → string;
  strings_ToUpper : string → string;
  Time_Format : Time → string → string;
}.

(** ** The types of the go-jira client that [CreateIssue] touches *)

Module gojira.

Record User : Type := { AccountID : string }.
Record IssueType : Type := { Name : string }.
Record Project : Type := { Key : string }.

Record IssueFields : Type := {
  Assignee : option User;
  Reporter : option User;
  Description : string;
  Type_ : IssueType;
  Project_ : Project;
  Summary : string;
}.

Record Issue : Type := { Fields : option IssueFields }.

(** A response body is a stream; reading it to its end yields the bytes
    read and possibly a read error. *)
Record ReadCloser : Type := { stream : string; failure : option error }.

Record Response : Type := { Body : option ReadCloser }.

(** What [Issue.Create] returns: an issue pointer, a response pointer and
    an error, each of which can be nil. *)
Definition CreateResult : Type :=
  (option Issue * option Response * option error)%type.

End gojira.

Definition ioutil_ReadAll (r : gojira.ReadCloser) : string * option error :=
  (gojira.stream r, gojira.failure r).

(** ** Programs that call the tracker

    [IssueCreate issueData k] performs [i.jira.Issue.Create(issueData)] and
    continues with [k] on what the call returns. *)

Inductive Call (A : Type) : Type :=
  | Return (a : A)
  | IssueCreate (issueData : gojira.Issue) (k : gojira.CreateResult → Call A).
Arguments Return {A} a.
Arguments IssueCreate {A} issueData k.

(** A tracker is a state machine answering create requests. *)
Record Tracker : Type := {
  tracker_state : Type;
  serve : gojira.Issue → tracker_state → gojira.CreateResult * tracker_state;
}.

(** [run p t w] runs [p] against tracker [t] started in state [w]; it gives
    the result of [p], the requests [t] received, in order, and its final
    state. *)
Fixpoint run {A} (p : Call A) (t : Tracker) (w : tracker_state t)
    : A * list gojira.Issue * tracker_state t :=
  match p with
  | Return a => (a, [], w)
  | IssueCreate issueData k =>
      let '(r, w') := serve t issueData w in
      let '(a, sent, w'') := run (k r) t w' in
      (a, issueData :: sent, w'')
  end.

(** ** Configuration and client *)

Record Options : Type := {
  URL : string;
  AccountID : string;
  Email : string;
  Token : string;
  ProjectName : string;
  IssueType : string;
}.

(** The [jira] field of the source, the client, is the tracker a program is
    run against. *)
Record Integration : Type := { options : Options }.

(** ** Iteration order of the two map loops *)

Record Ranges {MetaValue : Type} : Type := {
  info_range : list (string * string);
  meta_range : list (string * MetaValue);
}.
Arguments Ranges : clear implicits.

(** [range_of m l]: [l] lists every entry of [m] exactly once. *)
Definition range_of {V} (m : gmap string V) (l : list (string * V)) : Prop :=
  l ≡ₚ map_to_list m.

Section Jira.

Context {Time MetaValue : Type} `{!Collaborators Time MetaValue}.

Abbreviation ResultEvent := (output.ResultEvent Time MetaValue).

Definition ranges_of (event : ResultEvent) (ρ : Ranges MetaValue) : Prop :=
  range_of (output.Info event) (info_range ρ) ∧
  range_of (output.Metadata event) (meta_range ρ).

(** [jiraFormatDescription] formats a short description of the generated
    event by the nuclei scanner in Jira format. *)
Definition jiraFormatDescription (ρ : Ranges MetaValue) (event : ResultEvent)
    : string :=
  let template := format_GetMatchedTemplate event in
  String_of (
    WriteString "*Details*: *" ;;
    WriteString template ;;
    WriteString "* " ;;
    WriteString " matched at " ;;
    WriteString (output.Host event) ;;
    WriteString (nl +:+ nl +:+ "*Protocol*: ") ;;
    WriteString (strings_ToUpper (output.Type_ event)) ;;
    WriteString (nl +:+ nl +:+ "*Full URL*: ") ;;
    WriteString (output.Matched event) ;;
    WriteString (nl +:+ nl +:+ "*Timestamp*: ") ;;
    WriteString (Time_Format (output.Timestamp event)
                   "Mon Jan 2 15:04:05 -0700 MST 2006") ;;
    WriteString (nl +:+ nl +:+ "*Template Information*" +:+ nl +:+ nl +:+
                 "| Key | Value |" +:+ nl) ;;
    for_range (info_range ρ) (λ '(k, v),
      WriteString (fmt.Sprintf ("| %s | %s |" +:+ nl) [k; v])) ;;
    WriteString (nl +:+ "*Request*" +:+ nl +:+ nl +:+ "{code}" +:+ nl) ;;
    WriteString (output.Request event) ;;
    WriteString (nl +:+ "{code}" +:+ nl +:+ nl +:+ "*Response*" +:+ nl +:+ nl +:+
                 "{code}" +:+ nl) ;;
    WriteString (output.Response event) ;;
    WriteString (nl +:+ "{code}" +:+ nl +:+ nl) ;;
    when (bool_decide (0 < length (output.ExtractedResults event)) ||
          bool_decide (0 < size (output.Metadata event))) (
      WriteString ("*Extra Information*" +:+ nl +:+ nl) ;;
      when (bool_decide (0 < length (output.ExtractedResults event))) (
        WriteString ("*Extracted results*:" +:+ nl +:+ nl) ;;
        for_range (output.ExtractedResults event) (λ v,
          WriteString "- " ;;
          WriteString v ;;
          WriteString nl) ;;
        WriteString nl) ;;
      when (bool_decide (0 < size (output.Metadata event))) (
        WriteString ("*Metadata*:" +:+ nl +:+ nl) ;;
        for_range (meta_range ρ) (λ '(k, v),
          WriteString "- " ;;
          WriteString k ;;
          WriteString ": " ;;
          WriteString (types_ToString v) ;;
          WriteString nl) ;;
        WriteString nl))
  )%builder.

(** The strings a call of the formatter on [event] can return. *)
Definition jiraFormatDescription_returns (event : ResultEvent) (out : string)
    : Prop :=
  ∃ ρ, ranges_of event ρ ∧ out = jiraFormatDescription ρ event.

(** [CreateIssue] creates an issue in the tracker. *)
Definition CreateIssue (i : Integration) (ρ : Ranges MetaValue)
    (event : ResultEvent) : Call (option error) :=
  let summary := format_Summary event in
  let issueData := {|
    gojira.Fields := Some {|
      gojira.Assignee := Some {| gojira.AccountID := AccountID (options i) |};
      gojira.Reporter := Some {| gojira.AccountID := AccountID (options i) |};
      gojira.Description := jiraFormatDescription ρ event;
      gojira.Type_ := {| gojira.Name := IssueType (options i) |};
      gojira.Project_ := {| gojira.Key := ProjectName (options i) |};
      gojira.Summary := summary;
    |}
  |} in
  IssueCreate issueData (λ '(_, resp, err),
    match err with
    | Some err =>
        let data :=
          match resp with
          | Some resp =>
              match gojira.Body resp with
              | Some body => let '(d, _) := ioutil_ReadAll body in d
              | None => EmptyString
              end
          | None => EmptyString
          end in
        Return (Some (Errorf "%s => %s" [Error err; data]))
    | None => Return None
    end).

End Jira.

(** ** The description, section by section

    The text each part of the formatter contributes, for stating what the
    formatter returns. *)

Section Description.

Context {Time MetaValue : Type} `{!Collaborators Time MetaValue}.

Abbreviation ResultEvent := (output.ResultEvent Time MetaValue).

(** One row of the Template Information table. *)
Definition info_row (kv : string * string) : string :=
  "| " +:+ kv.1 +:+ " | " +:+ kv.2 +:+ " |" +:+ nl.

(** One item of the list of extracted results. *)
Definition result_item (v : string) : string := "- " +:+ v +:+ nl.

(** One item of the list of metadata entries. *)
Definition metadata_item (kv : string * MetaValue) : string :=
  "- " +:+ kv.1 +:+ ": " +:+ types_ToString kv.2 +:+ nl.

Definition details_line (event : ResultEvent) : string :=
  "*Details*: *" +:+ format_GetMatchedTemplate event +:+ "* " +:+
  " matched at " +:+ output.Host event.

Definition protocol_line (event : ResultEvent) : string :=
  nl +:+ nl +:+ "*Protocol*: " +:+ strings_ToUpper (output.Type_ event).

Definition url_line (event : ResultEvent) : string :=
  nl +:+ nl +:+ "*Full URL*: " +:+ output.Matched event.

Definition timestamp_text (t : Time) : string :=
  Time_Format t "Mon Jan 2 15:04:05 -0700 MST 2006".

Definition timestamp_line (event : ResultEvent) : string :=
  nl +:+ nl +:+ "*Timestamp*: " +:+ timestamp_text (output.Timestamp event).

Definition table_heading : string :=
  nl +:+ nl +:+ "*Template Information*" +:+ nl +:+ nl +:+
  "| Key | Value |" +:+ nl.

Definition request_block (event : ResultEvent) : string :=
  nl +:+ "*Request*" +:+ nl +:+ nl +:+ "{code}" +:+ nl +:+
  output.Request event +:+ nl +:+ "{code}" +:+ nl +:+ nl.

Definition response_block (event : ResultEvent) : string :=
  "*Response*" +:+ nl +:+ nl +:+ "{code}" +:+ nl +:+
  output.Response event +:+ nl +:+ "{code}" +:+ nl +:+ nl.

Definition extracted_results_list (event : ResultEvent) : string :=
  "*Extracted results*:" +:+ nl +:+ nl +:+
  join (result_item <$> output.ExtractedResults event) +:+ nl.

Definition metadata_list (items : list (string * MetaValue)) : string :=
  "*Metadata*:" +:+ nl +:+ nl +:+ join (metadata_item <$> items) +:+ nl.

Definition extra_information (ρ : Ranges MetaValue) (event : ResultEvent)
    : string :=
  if bool_decide (0 < length (output.ExtractedResults event)) ||
     bool_decide (0 < size (output.Metadata event))
  then
    "*Extra Information*" +:+ nl +:+ nl +:+
    (if bool_decide (0 < length (output.ExtractedResults event))
     then extracted_results_list event else EmptyString) +:+
    (if bool_decide (0 < size (output.Metadata event))
     then metadata_list (meta_range ρ) else EmptyString)
  else EmptyString.

(** Everything the formatter writes before the conditional last section. *)
Definition fixed_sections (rows : list (string * string))
    (event : ResultEvent) : string :=
  details_line event +:+ protocol_line event +:+ url_line event +:+
  timestamp_line event +:+ table_heading +:+ join (info_row <$> rows) +:+
  request_block event +:+ response_block event.


End Description.

(** ** Sample inputs *)

Module sample.

(** Metadata values: text and booleans, rendered as [types.ToString]
    renders them. *)
Inductive value : Type :=
  | VString (s : string)
  | VBool (b : bool).

Definition render (v : value) : string :=
  match v with
  | VString s => s
  | VBool true => "true"
  | VBool false => "false"
  end.

(** Upper-casing of the ASCII letters. *)
Definition upper_byte (c : ascii) : ascii :=
  let n := nat_of_ascii c in
  if (97 <=? n) && (n <=? 122) then ascii_of_nat (n - 32) else c.

Fixpoint upper (s : string) : string :=
  match s with
  | EmptyString => EmptyString
  | String c s' => String (upper_byte c) (upper s')
  end.

(** A clock with one instant, the Unix epoch in UTC. *)
Definition epoch_text : string := "Thu Jan 1 00:00:00 +0000 UTC 1970".

#[export] Instance collaborators : Collaborators unit value := {|
  format_Summary event := "[sample-template] " +:+ output.Matched event;
  format_GetMatchedTemplate _ := "sample-template";
  types_ToString := render;
  strings_ToUpper := upper;
  Time_Format _ _ := epoch_text;
|}.

Definition config : Options := {|
  URL := "https://tracker.example.com";
  AccountID := "5b10a2844c20165700ede21g";
  Email := "scanner@example.com";
  Token := "secret";
  ProjectName := "SEC";
  IssueType := "Bug";
|}.

Definition client : Integration := {| options := config |}.

(** A finding with one information entry, two extracted results and one
    metadata entry. *)
Definition finding : output.ResultEvent unit value := {|
  output.Type_ := "http";
  output.Host := "example.com";
  output.Matched := "https://example.com/admin";
  output.Request := "GET /admin HTTP/1.1";
  output.Response := "HTTP/1.1 200 OK";
  output.Info := {[ "severity" := "high" ]};
  output.ExtractedResults := ["admin"; "root"];
  output.Timestamp := tt;
  output.Metadata := {[ "verified" := VBool true ]};
|}.

Definition finding_ranges : Ranges value := {|
  info_range := [("severity", "high")];
  meta_range := [("verified", VBool true)];
|}.

Definition finding_text : string :=
  join [
    "*Details*: *sample-template*  matched at example.com"; nl; nl;
    "*Protocol*: HTTP"; nl; nl;
    "*Full URL*: https://example.com/admin"; nl; nl;
    "*Timestamp*: Thu Jan 1 00:00:00 +0000 UTC 1970"; nl; nl;
    "*Template Information*"; nl; nl;
    "| Key | Value |"; nl;
    "| severity | high |"; nl; nl;
    "*Request*"; nl; nl;
    "{code}"; nl; "GET /admin HTTP/1.1"; nl; "{code}"; nl; nl;
    "*Response*"; nl; nl;
    "{code}"; nl; "HTTP/1.1 200 OK"; nl; "{code}"; nl; nl;
    "*Extra Information*"; nl; nl;
    "*Extracted results*:"; nl; nl;
    "- admin"; nl; "- root"; nl; nl;
    "*Metadata*:"; nl; nl;
    "- verified: true"; nl; nl ].

(** A finding without information entries, extracted results or metadata
    whose request text is itself tracker markup. *)
Definition quoting : output.ResultEvent unit value := {|
  output.Type_ := "http";
  output.Host := "example.com";
  output.Matched := "https://example.com/";
  output.Request := "*Extra Information*";
  output.Response := "HTTP/1.1 200 OK";
  output.Info := ∅;
  output.ExtractedResults := [];
  output.Timestamp := tt;
  output.Metadata := ∅;
|}.

Definition quoting_text : string :=
  join [
    "*Details*: *sample-template*  matched at example.com"; nl; nl;
    "*Protocol*: HTTP"; nl; nl;
    "*Full URL*: https://example.com/"; nl; nl;
    "*Timestamp*: Thu Jan 1 00:00:00 +0000 UTC 1970"; nl; nl;
    "*Template Information*"; nl; nl;
    "| Key | Value |"; nl; nl;
    "*Request*"; nl; nl;
    "{code}"; nl; "*Extra Information*"; nl; "{code}"; nl; nl;
    "*Response*"; nl; nl;
    "{code}"; nl; "HTTP/1.1 200 OK"; nl; "{code}"; nl; nl ].

(** A finding with two information entries. *)
Definition labelled : output.ResultEvent unit value := {|
  output.Type_ := "dns";
  output.Host := "example.com";
  output.Matched := "example.com";
  output.Request := "A?";
  output.Response := "NOERROR";
  output.Info := <["author" := "pd"]> {[ "severity" := "high" ]};
  output.ExtractedResults := [];
  output.Timestamp := tt;
  output.Metadata := ∅;
|}.

Definition labelled_text (rows : list string) : string :=
  join [
    "*Details*: *sample-template*  matched at example.com"; nl; nl;
    "*Protocol*: DNS"; nl; nl;
    "*Full URL*: example.com"; nl; nl;
    "*Timestamp*: Thu Jan 1 00:00:00 +0000 UTC 1970"; nl; nl;
    "*Template Information*"; nl; nl;
    "| Key | Value |"; nl;
    join rows; nl;
    "*Request*"; nl; nl;
    "{code}"; nl; "A?"; nl; "{code}"; nl; nl;
    "*Response*"; nl; nl;
    "{code}"; nl; "NOERROR"; nl; "{code}"; nl; nl ].

Definition author_first : string :=
  labelled_text ["| author | pd |"; nl; "| severity | high |"; nl].

Definition severity_first : string :=
  labelled_text ["| severity | high |"; nl; "| author | pd |"; nl].




(** A tracker that accepts every request and answers with the issue. *)
Definition accepting : Tracker := {|
  tracker_state := nat;
  serve issue n := ((Some issue, Some {| gojira.Body := None |}, None), S n);
|}.

End sample.

(** ** Constructing the client

    [New] creates a new issue tracker integration client based on options.
    [jira.NewClient] belongs to go-jira: from the HTTP client of a transport
    and a base URL it gives a client or an error.  The HTTP client
    [tp.Client()] is identified with the transport [tp] it wraps.  The
    integration the source returns holds the client and the options; it is
    the pair of the client and the [Integration] here. *)

Module auth.

Record BasicAuthTransport : Type := { Username : string; Password : string }.

End auth.

Section Construction.

Context {Client : Type}.

Variable jira_NewClient :
  auth.BasicAuthTransport → string → option Client * option error.

Definition New (options : Options)
    : option (option Client * Integration) * option error :=
  let tp := {| auth.Username := Email options;
               auth.Password := Token options |} in
  let '(jiraClient, err) := jira_NewClient tp (URL options) in
  match err with
  | Some err => (None, Some err)
  | None => (Some (jiraClient, {| options := options |}), None)
  end.

End Construction.

(** ** Callers

    Sequencing of programs that call the tracker, and a caller that reports
    the same event twice, [CreateIssue(event)] followed by
    [CreateIssue(event)]; each call ranges over the maps in an order of its
    own. *)

Fixpoint Call_bind {A B} (p : Call A) (f : A → Call B) : Call B :=
  match p with
  | Return a => f a
  | IssueCreate issueData k => IssueCreate issueData (λ r, Call_bind (k r) f)
  end.

Definition CreateIssue_twice {Time MetaValue : Type}
    `{!Collaborators Time MetaValue} (i : Integration)
    (ρ1 ρ2 : Ranges MetaValue) (event : output.ResultEvent Time MetaValue)
    : Call (option error * option error) :=
  Call_bind (CreateIssue i ρ1 event) (λ err1,
  Call_bind (CreateIssue i ρ2 event) (λ err2,
  Return (err1, err2))).

(** ** Auxiliary notions for the properties *)

(** [ends_with s t]: [t] is the end of [s]. *)
Definition ends_with (s t : string) : Prop := ∃ before, s = before +:+ t.

(** The event [event] with its information mapping replaced by [info]. *)
Definition with_Info {Time MetaValue : Type} (info : gmap string string)
    (event : output.ResultEvent Time MetaValue)
    : output.ResultEvent Time MetaValue := {|
  output.Type_ := output.Type_ event;
  output.Host := output.Host event;
  output.Matched := output.Matched event;
  output.Request := output.Request event;
  output.Response := output.Response event;
  output.Info := info;
  output.ExtractedResults := output.ExtractedResults event;
  output.Timestamp := output.Timestamp event;
  output.Metadata := output.Metadata event;
|}.

(** The event [event] with its request and response texts replaced. *)
Definition with_texts {Time MetaValue : Type} (request response : string)
    (event : output.ResultEvent Time MetaValue)
    : output.ResultEvent Time MetaValue := {|
  output.Type_ := output.Type_ event;
  output.Host := output.Host event;
  output.Matched := output.Matched event;
  output.Request := request;
  output.Response := response;
  output.Info := output.Info event;
  output.ExtractedResults := output.ExtractedResults event;
  output.Timestamp := output.Timestamp event;
  output.Metadata := output.Metadata event;
|}.

(** What the formatter writes between the request text and the response
    text. *)
Definition block_boundary : string :=
  nl +:+ "{code}" +:+ nl +:+ nl +:+ "*Response*" +:+ nl +:+ nl +:+
  "{code}" +:+ nl.

(** ** Sample clients *)

Module sample_clients.

(** A client constructor that keeps the transport and the base URL and
    rejects the empty URL. *)
Definition new_client (tp : auth.BasicAuthTransport) (url : string)
    : option (auth.BasicAuthTransport * string) * option error :=
  match url with
  | EmptyString => (None, Some {| Error := "empty base URL" |})
  | _ => (Some (tp, url), None)
  end.



End sample_clients.

(** * Properties *)

(** ** Concatenation of strings *)

Lemma append_nil_l (s : string) : EmptyString +:+ s = s.
Proof. reflexivity. Qed.

Lemma append_cons (c : ascii) (s t : string) :
  String c s +:+ t = String c (s +:+ t).
Proof. reflexivity. Qed.

Lemma append_nil_r (s : string) : s +:+ EmptyString = s.
Proof. induction s as [|c s IH]; [done|]. by rewrite append_cons, IH. Qed.

Lemma append_assoc (s t u : string) : (s +:+ t) +:+ u = s +:+ t +:+ u.
Proof.
  induction s as [|c s IH]; [done|]. by rewrite !append_cons, IH.
Qed.

Lemma contains_app_l (s t u : string) : contains s t → contains (s +:+ u) t.
Proof.
  intros (a & b & ->). exists a, (b +:+ u). by rewrite !append_assoc.
Qed.

Lemma contains_app_r (s t u : string) : contains s t → contains (u +:+ s) t.
Proof.
  intros (a & b & ->). exists (u +:+ a), b. by rewrite !append_assoc.
Qed.

Lemma contains_refl (s : string) : contains s s.
Proof. exists EmptyString, EmptyString. by rewrite append_nil_r. Qed.

Lemma contains_join (l : list string) (s : string) :
  s ∈ l → contains (join l) s.
Proof.
  induction l as [|x l IH]; [by intros ?%elem_of_nil|].
  intros [->|Hin]%elem_of_cons; simpl.
  - apply contains_app_l, contains_refl.
  - by apply contains_app_r, IH.
Qed.

(** ** Builders only append *)

Lemma appends_ret : appends (bytes.ret tt) EmptyString.
Proof. intros b. unfold bytes.ret. by rewrite append_nil_r. Qed.

Lemma appends_WriteString (s : string) : appends (WriteString s) s.
Proof. by intros b. Qed.

Lemma appends_seq (m1 m2 : Builder unit) (s1 s2 : string) :
  appends m1 s1 → appends m2 s2 → appends (m1 ;; m2)%builder (s1 +:+ s2).
Proof.
  intros H1 H2 b. unfold bytes.bind. by rewrite H1, H2, append_assoc.
Qed.

Lemma appends_for_range {A} (l : list A) (body : A → Builder unit)
    (piece : A → string) :
  (∀ x, appends (body x) (piece x)) →
  appends (for_range l body) (join (piece <$> l)).
Proof.
  intros Hbody. induction l as [|x l IH]; simpl.
  - apply appends_ret.
  - by apply appends_seq.
Qed.

Lemma appends_when (c : bool) (m : Builder unit) (s : string) :
  appends m s → appends (when c m) (if c then s else EmptyString).
Proof. intros Hm. destruct c; [done|]. apply appends_ret. Qed.

Lemma String_of_appends (m : Builder unit) (s : string) :
  appends m s → String_of m = s.
Proof. intros Hm. unfold String_of, bytes.empty. by rewrite Hm. Qed.

(** ** The two formats *)

Lemma Sprintf_row (k v : string) :
  fmt.Sprintf ("| %s | %s |" +:+ nl) [k; v] =
  "| " +:+ k +:+ " | " +:+ v +:+ " |" +:+ nl.
Proof. reflexivity. Qed.

Lemma Sprintf_arrow (e data : string) :
  fmt.Sprintf "%s => %s" [e; data] = e +:+ " => " +:+ data.
Proof. cbn. by rewrite append_nil_r. Qed.

(** ** The formatter's output in sections *)

Section Sections.

Context {Time MetaValue : Type} `{!Collaborators Time MetaValue}.

Abbreviation ResultEvent := (output.ResultEvent Time MetaValue).

Lemma appends_info_row (kv : string * string) :
  appends (let '(k, v) := kv in
           WriteString (fmt.Sprintf ("| %s | %s |" +:+ nl) [k; v]))
          (info_row kv).
Proof.
  destruct kv as [k v]. rewrite Sprintf_row. apply appends_WriteString.
Qed.

Lemma appends_result_item (v : string) :
  appends (WriteString "- " ;; WriteString v ;; WriteString nl)%builder
          (result_item v).
Proof. repeat apply appends_seq; apply appends_WriteString. Qed.

Lemma appends_metadata_item (kv : string * MetaValue) :
  appends (let '(k, v) := kv in
           WriteString "- " ;; WriteString k ;; WriteString ": " ;;
           WriteString (types_ToString v) ;; WriteString nl)%builder
          (metadata_item kv).
Proof.
  destruct kv as [k v]. repeat apply appends_seq; apply appends_WriteString.
Qed.

(** The formatter's output as a concatenation of its sections. *)
Lemma jiraFormatDescription_sections (ρ : Ranges MetaValue)
    (event : ResultEvent) :
  jiraFormatDescription ρ event =
  fixed_sections (info_range ρ) event +:+ extra_information ρ event.
Proof.
  unfold jiraFormatDescription. erewrite String_of_appends; last first.
  { repeat first
      [ apply appends_seq
      | apply appends_WriteString
      | apply appends_when
      | apply (appends_for_range _ _ info_row), appends_info_row
      | apply (appends_for_range _ _ result_item), appends_result_item
      | apply (appends_for_range _ _ metadata_item), appends_metadata_item ]. }
  unfold fixed_sections, extra_information, details_line, protocol_line,
    url_line, timestamp_line, timestamp_text, table_heading, request_block,
    response_block, extracted_results_list, metadata_list.
  repeat case_bool_decide; simpl; by rewrite ?append_assoc, ?append_nil_r.
Qed.

End Sections.

(** ** Iteration orders *)

Lemma range_of_length {V} (m : gmap string V) (l : list (string * V)) :
  range_of m l → length l = size m.
Proof.
  unfold range_of. intros Hl. by rewrite Hl, length_map_to_list.
Qed.

Lemma range_of_empty {V} (l : list (string * V)) : range_of ∅ l → l = [].
Proof.
  unfold range_of. rewrite map_to_list_empty. by intros ?%Permutation_nil_r.
Qed.

(** A map with at most one entry is visited in one way only. *)
Lemma range_of_unique {V} (m : gmap string V) (l1 l2 : list (string * V)) :
  size m ≤ 1 → range_of m l1 → range_of m l2 → l1 = l2.
Proof.
  unfold range_of. rewrite <-length_map_to_list.
  destruct (map_to_list m) as [|x [|y l]]; simpl; intros Hsize H1 H2.
  - apply Permutation_nil_r in H1, H2. congruence.
  - apply Permutation_singleton_r in H1, H2. congruence.
  - lia.
Qed.

(** Every map has an iteration order, so the formatter always returns. *)
Lemma ranges_of_exists {Time MetaValue}
    (event : output.ResultEvent Time MetaValue) :
  ∃ ρ, ranges_of event ρ.
Proof.
  exists {| info_range := map_to_list (output.Info event);
            meta_range := map_to_list (output.Metadata event) |}.
  split; unfold range_of; reflexivity.
Qed.

(** ** The description formatter *)

Section Formatter.

Context {Time MetaValue : Type} `{!Collaborators Time MetaValue}.

Abbreviation ResultEvent := (output.ResultEvent Time MetaValue).

(** The formatter is total: on every event it returns some string. *)
Lemma jiraFormatDescription_total (event : ResultEvent) :
  ∃ out, jiraFormatDescription_returns event out.
Proof.
  destruct (ranges_of_exists event) as [ρ Hρ].
  by exists (jiraFormatDescription ρ event), ρ.
Qed.

(** C1. For an event whose information mapping is not empty, the text
    between the table's header row and the Request block is the
    concatenation of rows [| key | value |], each followed by a line feed,
    and these rows are the entries of the mapping, each exactly once, in
    some order; the row of every entry occurs in the description. *)
Theorem C1_one_table_row_per_info_entry (event : ResultEvent) (out : string) :
  output.Info event ≠ ∅ →
  jiraFormatDescription_returns event out →
  (∃ (rows : list (string * string)) (extra : string),
     rows ≡ₚ map_to_list (output.Info event) ∧
     length rows = size (output.Info event) ∧
     out =
       details_line event +:+ protocol_line event +:+ url_line event +:+
       timestamp_line event +:+
       nl +:+ nl +:+ "*Template Information*" +:+ nl +:+ nl +:+
       "| Key | Value |" +:+ nl +:+
       join ((λ kv, "| " +:+ kv.1 +:+ " | " +:+ kv.2 +:+ " |" +:+ nl) <$> rows) +:+
       request_block event +:+ response_block event +:+ extra) ∧
  (∀ k v, output.Info event !! k = Some v →
     contains out ("| " +:+ k +:+ " | " +:+ v +:+ " |" +:+ nl)).
Proof.
  intros _ (ρ & [Hinfo _] & ->). split.
  - exists (info_range ρ), (extra_information ρ event).
    split; [done|]. split; [by apply range_of_length|].
    rewrite jiraFormatDescription_sections.
    unfold fixed_sections, table_heading. by rewrite !append_assoc.
  - intros k v Hkv. rewrite jiraFormatDescription_sections.
    unfold fixed_sections.
    apply contains_app_l. do 5 apply contains_app_r. apply contains_app_l.
    apply contains_join.
    apply (list_elem_of_fmap_2 info_row _ (k, v)).
    unfold range_of in Hinfo. rewrite Hinfo. by apply elem_of_map_to_list.
Qed.

(** C3. For an event whose sequence of extracted results is not empty, the
    description ends with the Extra Information section, which starts with
    one item [- string] per extracted string, each on a line of its own,
    in the order of the sequence. *)
Theorem C3_extracted_results_in_order (event : ResultEvent) (out : string) :
  output.ExtractedResults event ≠ [] →
  jiraFormatDescription_returns event out →
  ∃ ρ, ranges_of event ρ ∧
    out =
      fixed_sections (info_range ρ) event +:+
      "*Extra Information*" +:+ nl +:+ nl +:+
      "*Extracted results*:" +:+ nl +:+ nl +:+
      join ((λ v, "- " +:+ v +:+ nl) <$> output.ExtractedResults event) +:+
      nl +:+
      (if bool_decide (0 < size (output.Metadata event))
       then metadata_list (meta_range ρ) else EmptyString).
Proof.
  intros Hne (ρ & Hρ & ->). exists ρ. split; [done|].
  rewrite jiraFormatDescription_sections. f_equal.
  unfold extra_information, extracted_results_list.
  rewrite (bool_decide_eq_true_2 (0 < length _)).
  - simpl. by rewrite !append_assoc.
  - destruct (output.ExtractedResults event); simpl; [done|lia].
Qed.

(** C4. The request text and the response text are written unchanged,
    each between a [{code}] line after its label and a closing [{code}]
    line. *)
Theorem C4_request_response_verbatim (event : ResultEvent) (out : string) :
  jiraFormatDescription_returns event out →
  ∃ ρ, ranges_of event ρ ∧
    out =
      (details_line event +:+ protocol_line event +:+ url_line event +:+
       timestamp_line event +:+ table_heading +:+
       join (info_row <$> info_range ρ)) +:+
      nl +:+ "*Request*" +:+ nl +:+ nl +:+
      "{code}" +:+ nl +:+ output.Request event +:+ nl +:+ "{code}" +:+
      nl +:+ nl +:+ "*Response*" +:+ nl +:+ nl +:+
      "{code}" +:+ nl +:+ output.Response event +:+ nl +:+ "{code}" +:+
      nl +:+ nl +:+
      extra_information ρ event.
Proof.
  intros (ρ & Hρ & ->). exists ρ. split; [done|].
  rewrite jiraFormatDescription_sections.
  unfold fixed_sections, request_block, response_block.
  by rewrite !append_assoc.
Qed.


(** C8. The description consists of the Details line, the Protocol line
    with the upper-cased type, the Full URL line, the Timestamp line, the
    Template Information table, the Request block and the Response block,
    in this order, followed by the conditional last section. *)
Theorem C8_sections_in_order (event : ResultEvent) (out : string) :
  jiraFormatDescription_returns event out →
  ∃ ρ, ranges_of event ρ ∧
    out =
      ("*Details*: *" +:+ format_GetMatchedTemplate event +:+ "* " +:+
       " matched at " +:+ output.Host event) +:+
      (nl +:+ nl +:+ "*Protocol*: " +:+
       strings_ToUpper (output.Type_ event)) +:+
      (nl +:+ nl +:+ "*Full URL*: " +:+ output.Matched event) +:+
      (nl +:+ nl +:+ "*Timestamp*: " +:+
       timestamp_text (output.Timestamp event)) +:+
      (table_heading +:+ join (info_row <$> info_range ρ)) +:+
      request_block event +:+
      response_block event +:+
      extra_information ρ event.
Proof.
  intros (ρ & Hρ & ->). exists ρ. split; [done|].
  rewrite jiraFormatDescription_sections.
  unfold fixed_sections, details_line, protocol_line, url_line,
    timestamp_line.
  by rewrite !append_assoc.
Qed.

(** C10. Every description contains the heading [*Template Information*]
    followed by the header row [| Key | Value |], then the rows, then the
    Request block; for an empty information mapping there are no rows. *)
Theorem C10_table_header_always_present (event : ResultEvent)
    (out : string) :
  jiraFormatDescription_returns event out →
  ∃ rows after,
    out =
      (details_line event +:+ protocol_line event +:+ url_line event +:+
       timestamp_line event) +:+
      nl +:+ nl +:+ "*Template Information*" +:+ nl +:+ nl +:+
      "| Key | Value |" +:+ nl +:+
      rows +:+
      nl +:+ "*Request*" +:+ nl +:+ nl +:+ "{code}" +:+ nl +:+ after ∧
    (output.Info event = ∅ → rows = EmptyString).
Proof.
  intros (ρ & [Hinfo _] & ->).
  eexists (join (info_row <$> info_range ρ)), _. split.
  - rewrite jiraFormatDescription_sections.
    unfold fixed_sections, table_heading, request_block.
    rewrite !append_assoc. reflexivity.
  - intros Hempty. rewrite Hempty in Hinfo.
    by rewrite (range_of_empty _ Hinfo).
Qed.

End Formatter.

Section Conditional.

Context {Time MetaValue : Type} `{!Collaborators Time MetaValue}.

Abbreviation ResultEvent := (output.ResultEvent Time MetaValue).

(** C2 (amended). For an event without extracted results and without
    metadata the formatter writes nothing after the Response block: the
    description is the text of the fixed sections, which ends with the
    closing [{code}] line of the response and an empty line. *)
Theorem C2_nothing_after_response_block (event : ResultEvent)
    (out : string) :
  output.ExtractedResults event = [] →
  output.Metadata event = ∅ →
  jiraFormatDescription_returns event out →
  ∃ rows,
    rows ≡ₚ map_to_list (output.Info event) ∧
    out =
      (details_line event +:+ protocol_line event +:+ url_line event +:+
       timestamp_line event +:+ table_heading +:+ join (info_row <$> rows) +:+
       request_block event) +:+
      "*Response*" +:+ nl +:+ nl +:+
      "{code}" +:+ nl +:+ output.Response event +:+ nl +:+ "{code}" +:+
      nl +:+ nl.
Proof.
  intros Hresults Hmeta (ρ & [Hinfo _] & ->).
  exists (info_range ρ). split; [done|].
  rewrite jiraFormatDescription_sections.
  unfold extra_information, fixed_sections, response_block.
  rewrite Hresults, Hmeta, map_size_empty. simpl.
  by rewrite append_nil_r, !append_assoc.
Qed.

(** C9 (amended). Two runs of the formatter on the same event return
    descriptions that differ at most in the order of the rows of the
    Template Information table and in the order of the Metadata items;
    when the information mapping and the metadata mapping hold at most one
    entry each, the two descriptions are equal. *)
Theorem C9_equal_up_to_map_order (event : ResultEvent)
    (out1 out2 : string) :
  jiraFormatDescription_returns event out1 →
  jiraFormatDescription_returns event out2 →
  (∃ rows1 rows2 items1 items2,
     rows1 ≡ₚ rows2 ∧ items1 ≡ₚ items2 ∧
     out1 =
       fixed_sections rows1 event +:+
       extra_information
         {| info_range := rows1; meta_range := items1 |} event ∧
     out2 =
       fixed_sections rows2 event +:+
       extra_information
         {| info_range := rows2; meta_range := items2 |} event) ∧
  (size (output.Info event) ≤ 1 → size (output.Metadata event) ≤ 1 →
   out1 = out2).
Proof.
  intros ([rows1 items1] & [Hi1 Hm1] & ->) ([rows2 items2] & [Hi2 Hm2] & ->).
  simpl in *. split.
  - exists rows1, rows2, items1, items2.
    unfold range_of in *.
    split; [by rewrite Hi1, Hi2|]. split; [by rewrite Hm1, Hm2|].
    by rewrite !jiraFormatDescription_sections.
  - intros Hinfo Hmeta.
    by rewrite (range_of_unique _ _ _ Hinfo Hi1 Hi2),
               (range_of_unique _ _ _ Hmeta Hm1 Hm2).
Qed.

End Conditional.

(** ** Creating the issue *)

Section Creation.

Context {Time MetaValue : Type} `{!Collaborators Time MetaValue}.

Abbreviation ResultEvent := (output.ResultEvent Time MetaValue).


(** C6. Against every tracker, [CreateIssue] sends exactly one request;
    its assignee and reporter carry the configured account id, its type
    the configured issue type, its project the configured project name,
    its summary is [format.Summary] of the event and its description is a
    description the formatter returns for the event. *)
Theorem C6_issue_payload (i : Integration) (ρ : Ranges MetaValue)
    (event : ResultEvent) (t : Tracker) (w : tracker_state t) :
  ranges_of event ρ →
  ∃ fields,
    (run (CreateIssue i ρ event) t w).1.2 =
      [ {| gojira.Fields := Some fields |} ] ∧
    gojira.Assignee fields =
      Some {| gojira.AccountID := AccountID (options i) |} ∧
    gojira.Reporter fields =
      Some {| gojira.AccountID := AccountID (options i) |} ∧
    gojira.Name (gojira.Type_ fields) = IssueType (options i) ∧
    gojira.Key (gojira.Project_ fields) = ProjectName (options i) ∧
    gojira.Summary fields = format_Summary event ∧
    gojira.Description fields = jiraFormatDescription ρ event ∧
    jiraFormatDescription_returns event (gojira.Description fields).
Proof.
  intros Hρ. unfold CreateIssue. simpl.
  destruct (serve t _ w) as [[[created resp] [err|]] w']; simpl;
    (eexists; split; [reflexivity|]; simpl; repeat split; by exists ρ).
Qed.

End Creation.


(** * The properties on the sample inputs *)

#[local] Existing Instance sample.collaborators.

Lemma finding_ranges_ok : ranges_of sample.finding sample.finding_ranges.
Proof. split; vm_compute; reflexivity. Defined.

Lemma finding_returns :
  jiraFormatDescription_returns sample.finding sample.finding_text.
Proof.
  exists sample.finding_ranges. split; [exact finding_ranges_ok|].
  vm_compute. reflexivity.
Defined.

Lemma quoting_returns :
  jiraFormatDescription_returns sample.quoting sample.quoting_text.
Proof.
  exists {| info_range := []; meta_range := [] |}.
  split; [split; vm_compute; reflexivity|]. vm_compute. reflexivity.
Defined.

Lemma labelled_returns_author_first :
  jiraFormatDescription_returns sample.labelled sample.author_first.
Proof.
  exists {| info_range := [("author", "pd"); ("severity", "high")];
            meta_range := [] |}.
  split; [split; vm_compute; [apply perm_swap|reflexivity]|].
  vm_compute. reflexivity.
Defined.

Lemma labelled_returns_severity_first :
  jiraFormatDescription_returns sample.labelled sample.severity_first.
Proof.
  exists {| info_range := [("severity", "high"); ("author", "pd")];
            meta_range := [] |}.
  split; [split; vm_compute; reflexivity|]. vm_compute. reflexivity.
Defined.

(** C1 on the sample finding. *)
Lemma C1_witness :
  output.Info sample.finding ≠ ∅ ∧
  (∃ (rows : list (string * string)) (extra : string),
     rows ≡ₚ map_to_list (output.Info sample.finding) ∧
     length rows = size (output.Info sample.finding) ∧
     sample.finding_text =
       details_line sample.finding +:+ protocol_line sample.finding +:+
       url_line sample.finding +:+ timestamp_line sample.finding +:+
       nl +:+ nl +:+ "*Template Information*" +:+ nl +:+ nl +:+
       "| Key | Value |" +:+ nl +:+
       join ((λ kv, "| " +:+ kv.1 +:+ " | " +:+ kv.2 +:+ " |" +:+ nl) <$> rows) +:+
       request_block sample.finding +:+ response_block sample.finding +:+
       extra) ∧
  (∀ k v, output.Info sample.finding !! k = Some v →
     contains sample.finding_text ("| " +:+ k +:+ " | " +:+ v +:+ " |" +:+ nl)).
Proof.
  assert (Hne : output.Info sample.finding ≠ ∅).
  { intros Hempty. apply (f_equal (λ m, m !! "severity")) in Hempty.
    vm_compute in Hempty. discriminate Hempty. }
  split; [exact Hne|].
  exact (C1_one_table_row_per_info_entry sample.finding sample.finding_text
           Hne finding_returns).
Defined.

(** C2: the request text of [sample.quoting] puts the heading's text into a
    description that has no such section. *)
Lemma C2_counterexample :
  output.ExtractedResults sample.quoting = [] ∧
  output.Metadata sample.quoting = ∅ ∧
  jiraFormatDescription_returns sample.quoting sample.quoting_text ∧
  contains sample.quoting_text "*Extra Information*".
Proof.
  split; [reflexivity|]. split; [reflexivity|].
  split; [exact quoting_returns|].
  exists (join [
      "*Details*: *sample-template*  matched at example.com"; nl; nl;
      "*Protocol*: HTTP"; nl; nl;
      "*Full URL*: https://example.com/"; nl; nl;
      "*Timestamp*: Thu Jan 1 00:00:00 +0000 UTC 1970"; nl; nl;
      "*Template Information*"; nl; nl;
      "| Key | Value |"; nl; nl;
      "*Request*"; nl; nl; "{code}"; nl ]),
    (join [ nl; "{code}"; nl; nl;
      "*Response*"; nl; nl;
      "{code}"; nl; "HTTP/1.1 200 OK"; nl; "{code}"; nl; nl ]).
  vm_compute. reflexivity.
Qed.

(** C2 (amended) on [sample.quoting]. *)
Lemma C2_witness :
  ∃ rows,
    rows ≡ₚ map_to_list (output.Info sample.quoting) ∧
    sample.quoting_text =
      (details_line sample.quoting +:+ protocol_line sample.quoting +:+
       url_line sample.quoting +:+ timestamp_line sample.quoting +:+
       table_heading +:+ join (info_row <$> rows) +:+
       request_block sample.quoting) +:+
      "*Response*" +:+ nl +:+ nl +:+
      "{code}" +:+ nl +:+ output.Response sample.quoting +:+ nl +:+ "{code}" +:+
      nl +:+ nl.
Proof.
  apply (C2_nothing_after_response_block sample.quoting sample.quoting_text).
  - reflexivity.
  - reflexivity.
  - exact quoting_returns.
Defined.

(** C3 on the sample finding. *)
Lemma C3_witness :
  output.ExtractedResults sample.finding ≠ [] ∧
  ∃ ρ, ranges_of sample.finding ρ ∧
    sample.finding_text =
      fixed_sections (info_range ρ) sample.finding +:+
      "*Extra Information*" +:+ nl +:+ nl +:+
      "*Extracted results*:" +:+ nl +:+ nl +:+
      join ((λ v, "- " +:+ v +:+ nl) <$>
            output.ExtractedResults sample.finding) +:+
      nl +:+
      (if bool_decide (0 < size (output.Metadata sample.finding))
       then metadata_list (meta_range ρ) else EmptyString).
Proof.
  assert (Hne : output.ExtractedResults sample.finding ≠ []).
  { simpl. discriminate. }
  split; [exact Hne|].
  exact (C3_extracted_results_in_order sample.finding sample.finding_text
           Hne finding_returns).
Defined.

(** C4 on the sample finding. *)
Lemma C4_witness :
  ∃ ρ, ranges_of sample.finding ρ ∧
    sample.finding_text =
      (details_line sample.finding +:+ protocol_line sample.finding +:+
       url_line sample.finding +:+ timestamp_line sample.finding +:+
       table_heading +:+ join (info_row <$> info_range ρ)) +:+
      nl +:+ "*Request*" +:+ nl +:+ nl +:+
      "{code}" +:+ nl +:+ output.Request sample.finding +:+ nl +:+ "{code}" +:+
      nl +:+ nl +:+ "*Response*" +:+ nl +:+ nl +:+
      "{code}" +:+ nl +:+ output.Response sample.finding +:+ nl +:+ "{code}" +:+
      nl +:+ nl +:+
      extra_information ρ sample.finding.
Proof.
  exact (C4_request_response_verbatim sample.finding sample.finding_text
           finding_returns).
Defined.


(** C6 on the sample finding and the tracker that accepts every request. *)
Lemma C6_witness :
  ∃ fields,
    (run (CreateIssue sample.client sample.finding_ranges sample.finding)
         sample.accepting 0).1.2 =
      [ {| gojira.Fields := Some fields |} ] ∧
    gojira.Assignee fields =
      Some {| gojira.AccountID := "5b10a2844c20165700ede21g" |} ∧
    gojira.Reporter fields =
      Some {| gojira.AccountID := "5b10a2844c20165700ede21g" |} ∧
    gojira.Name (gojira.Type_ fields) = "Bug" ∧
    gojira.Key (gojira.Project_ fields) = "SEC" ∧
    gojira.Summary fields = format_Summary sample.finding ∧
    gojira.Description fields =
      jiraFormatDescription sample.finding_ranges sample.finding ∧
    jiraFormatDescription_returns sample.finding (gojira.Description fields).
Proof.
  exact (C6_issue_payload sample.client sample.finding_ranges sample.finding
           sample.accepting 0 finding_ranges_ok).
Defined.


(** C8 on the sample finding. *)
Lemma C8_witness :
  ∃ ρ, ranges_of sample.finding ρ ∧
    sample.finding_text =
      ("*Details*: *" +:+ format_GetMatchedTemplate sample.finding +:+ "* " +:+
       " matched at " +:+ output.Host sample.finding) +:+
      (nl +:+ nl +:+ "*Protocol*: " +:+
       strings_ToUpper (output.Type_ sample.finding)) +:+
      (nl +:+ nl +:+ "*Full URL*: " +:+ output.Matched sample.finding) +:+
      (nl +:+ nl +:+ "*Timestamp*: " +:+
       timestamp_text (output.Timestamp sample.finding)) +:+
      (table_heading +:+ join (info_row <$> info_range ρ)) +:+
      request_block sample.finding +:+
      response_block sample.finding +:+
      extra_information ρ sample.finding.
Proof.
  exact (C8_sections_in_order sample.finding sample.finding_text
           finding_returns).
Defined.

(** C9: the formatter can return two different descriptions of
    [sample.labelled], one per order of its two information entries. *)
Lemma C9_counterexample :
  jiraFormatDescription_returns sample.labelled sample.author_first ∧
  jiraFormatDescription_returns sample.labelled sample.severity_first ∧
  sample.author_first ≠ sample.severity_first.
Proof.
  split; [exact labelled_returns_author_first|].
  split; [exact labelled_returns_severity_first|].
  apply String.eqb_neq. vm_compute. reflexivity.
Qed.

(** C9 (amended) on two runs over the sample finding. *)
Lemma C9_witness :
  (∃ rows1 rows2 items1 items2,
     rows1 ≡ₚ rows2 ∧ items1 ≡ₚ items2 ∧
     sample.finding_text =
       fixed_sections rows1 sample.finding +:+
       extra_information
         {| info_range := rows1; meta_range := items1 |} sample.finding ∧
     sample.finding_text =
       fixed_sections rows2 sample.finding +:+
       extra_information
         {| info_range := rows2; meta_range := items2 |} sample.finding) ∧
  (size (output.Info sample.finding) ≤ 1 →
   size (output.Metadata sample.finding) ≤ 1 →
   sample.finding_text = sample.finding_text).
Proof.
  exact (C9_equal_up_to_map_order sample.finding sample.finding_text
           sample.finding_text finding_returns finding_returns).
Defined.

(** C10 on [sample.quoting], whose information mapping is empty. *)
Lemma C10_witness :
  ∃ rows after,
    sample.quoting_text =
      (details_line sample.quoting +:+ protocol_line sample.quoting +:+
       url_line sample.quoting +:+ timestamp_line sample.quoting) +:+
      nl +:+ nl +:+ "*Template Information*" +:+ nl +:+ nl +:+
      "| Key | Value |" +:+ nl +:+
      rows +:+
      nl +:+ "*Request*" +:+ nl +:+ nl +:+ "{code}" +:+ nl +:+ after ∧
    (output.Info sample.quoting = ∅ → rows = EmptyString).
Proof.
  exact (C10_table_header_always_present sample.quoting sample.quoting_text
           quoting_returns).
Defined.


(** * Further properties of the formatter *)

Lemma append_length (s t : string) :
  String.length (s +:+ t) = String.length s + String.length t.
Proof.
  induction s as [|c s IH]; [done|]. rewrite append_cons. simpl. by rewrite IH.
Qed.

(** The length of a concatenation does not depend on the order of the
    pieces. *)
Lemma join_length_perm {A} (piece : A → string) (l1 l2 : list A) :
  l1 ≡ₚ l2 →
  String.length (join (piece <$> l1)) = String.length (join (piece <$> l2)).
Proof.
  induction 1 as [|x l1 l2 _ IH|x y l|l1 l2 l3 _ IH1 _ IH2];
    rewrite ?fmap_cons; cbn [join].
  - done.
  - by rewrite !append_length, IH.
  - rewrite !append_length. lia.
  - congruence.
Qed.

Lemma ends_with_refl (s : string) : ends_with s s.
Proof. by exists EmptyString. Qed.

Lemma ends_with_app_r (s t u : string) :
  ends_with s t → ends_with (u +:+ s) t.
Proof. intros [p ->]. exists (u +:+ p). by rewrite append_assoc. Qed.

Lemma ends_with_snoc (s t u : string) :
  ends_with s t → ends_with (s +:+ u) (t +:+ u).
Proof. intros [p ->]. exists p. by rewrite append_assoc. Qed.

(** A non-empty list of pieces that end with [t] concatenates to a string
    that ends with [t]. *)
Lemma ends_with_join {A} (piece : A → string) (t : string) (l : list A) :
  l ≠ [] → (∀ x, ends_with (piece x) t) → ends_with (join (piece <$> l)) t.
Proof.
  intros Hne Hpiece. induction l as [|x [|y l] IH]; [done| |].
  - simpl. rewrite append_nil_r. apply Hpiece.
  - change (ends_with (piece x +:+ join (piece <$> y :: l)) t).
    by apply ends_with_app_r, IH.
Qed.

Lemma non_empty_length {A} (l : list A) : 0 < length l → l ≠ [].
Proof. destruct l; simpl; [lia|done]. Qed.

Section Formatter_more.

Context {Time MetaValue : Type} `{!Collaborators Time MetaValue}.

Abbreviation ResultEvent := (output.ResultEvent Time MetaValue).

(** X1. For an event with metadata, the description ends with the Extra
    Information section, whose last part is the Metadata list: one item
    [- key: value] per entry of the metadata mapping, each exactly once, in
    some order, the value rendered by [types.ToString]; the list of
    extracted results precedes it when there are extracted results, and is
    left out with its heading when there are none. *)
Theorem X1_metadata_list (event : ResultEvent) (out : string) :
  output.Metadata event ≠ ∅ →
  jiraFormatDescription_returns event out →
  ∃ rows items,
    rows ≡ₚ map_to_list (output.Info event) ∧
    items ≡ₚ map_to_list (output.Metadata event) ∧
    out =
      fixed_sections rows event +:+
      "*Extra Information*" +:+ nl +:+ nl +:+
      (match output.ExtractedResults event with
       | [] => EmptyString
       | _ :: _ => extracted_results_list event
       end) +:+
      "*Metadata*:" +:+ nl +:+ nl +:+
      join ((λ kv, "- " +:+ kv.1 +:+ ": " +:+ types_ToString kv.2 +:+ nl) <$>
            items) +:+
      nl.
Proof.
  intros Hne (ρ & [Hinfo Hmeta] & ->).
  exists (info_range ρ), (meta_range ρ). split; [done|]. split; [done|].
  rewrite jiraFormatDescription_sections. f_equal.
  unfold extra_information, metadata_list.
  apply map_size_non_empty_iff in Hne.
  rewrite (bool_decide_eq_true_2 (0 < size _)) by lia.
  rewrite orb_true_r.
  destruct (output.ExtractedResults event) as [|v l]; simpl;
    by rewrite ?append_assoc.
Qed.

(** X2. The formatter writes the Extra Information section exactly when
    there is something to list: the description is the text of the fixed
    sections alone if and only if the event has neither extracted results
    nor metadata. *)
Theorem X2_extra_section_iff (ρ : Ranges MetaValue) (event : ResultEvent) :
  jiraFormatDescription ρ event = fixed_sections (info_range ρ) event ↔
  output.ExtractedResults event = [] ∧ output.Metadata event = ∅.
Proof.
  rewrite jiraFormatDescription_sections. split.
  - intros Heq.
    rewrite <-(append_nil_r (fixed_sections _ _)) in Heq at 2.
    apply (inj (String.append _)) in Heq.
    unfold extra_information in Heq.
    destruct (output.ExtractedResults event) as [|v l] eqn:Hresults.
    + rewrite bool_decide_eq_false_2 in Heq by (simpl; lia).
      case_bool_decide as Hsize; simpl in Heq; [discriminate Heq|].
      split; [done|]. apply map_size_empty_iff. lia.
    + rewrite bool_decide_eq_true_2 in Heq by (simpl; lia).
      discriminate Heq.
  - intros [Hresults Hmeta]. unfold extra_information.
    rewrite Hresults, Hmeta, map_size_empty. simpl. apply append_nil_r.
Qed.

Lemma extracted_results_list_ends (event : ResultEvent) :
  output.ExtractedResults event ≠ [] →
  ends_with (extracted_results_list event) (nl +:+ nl).
Proof.
  intros Hne. unfold extracted_results_list. do 3 apply ends_with_app_r.
  apply ends_with_snoc, ends_with_join; [done|].
  intros v. unfold result_item. do 2 apply ends_with_app_r.
  apply ends_with_refl.
Qed.

Lemma metadata_list_ends (items : list (string * MetaValue)) :
  items ≠ [] → ends_with (metadata_list items) (nl +:+ nl).
Proof.
  intros Hne. unfold metadata_list. do 3 apply ends_with_app_r.
  apply ends_with_snoc, ends_with_join; [done|].
  intros kv. unfold metadata_item. do 4 apply ends_with_app_r.
  apply ends_with_refl.
Qed.

(** X3. Every description ends with an empty line, that is with two line
    feeds, whichever sections it has. *)
Theorem X3_ends_with_empty_line (event : ResultEvent) (out : string) :
  jiraFormatDescription_returns event out → ends_with out (nl +:+ nl).
Proof.
  intros (ρ & [_ Hmeta] & ->). rewrite jiraFormatDescription_sections.
  unfold extra_information.
  case_bool_decide as Hresults; case_bool_decide as Hsize; simpl.
  - do 5 apply ends_with_app_r. apply metadata_list_ends, non_empty_length.
    by rewrite (range_of_length _ _ Hmeta).
  - rewrite append_nil_r. do 4 apply ends_with_app_r.
    by apply extracted_results_list_ends, non_empty_length.
  - rewrite append_nil_l. do 4 apply ends_with_app_r.
    apply metadata_list_ends, non_empty_length.
    by rewrite (range_of_length _ _ Hmeta).
  - rewrite append_nil_r. unfold fixed_sections, response_block.
    do 15 apply ends_with_app_r. apply ends_with_refl.
Qed.

Lemma range_of_singleton {V} (k : string) (v : V) (l : list (string * V)) :
  range_of {[ k := v ]} l ↔ l = [(k, v)].
Proof.
  unfold range_of. rewrite map_to_list_singleton.
  apply Permutation_singleton_r.
Qed.

(** The description of an event whose information mapping was replaced. *)
Lemma jiraFormatDescription_with_Info (ρ : Ranges MetaValue)
    (info : gmap string string) (event : ResultEvent) :
  jiraFormatDescription ρ (with_Info info event) =
  "*Details*: *" +:+ format_GetMatchedTemplate (with_Info info event) +:+
  "* " +:+ " matched at " +:+ output.Host event +:+
  protocol_line event +:+ url_line event +:+ timestamp_line event +:+
  table_heading +:+ join (info_row <$> info_range ρ) +:+
  request_block event +:+ response_block event +:+
  extra_information ρ event.
Proof.
  rewrite jiraFormatDescription_sections.
  unfold fixed_sections, details_line. by rewrite !append_assoc.
Qed.

(** X4. Keys and values are written into the table without escaping, so the
    table does not determine the mapping: an entry with key [k1 | k2] and
    value [v] and an entry with key [k1] and value [k2 | v] give the same
    row, and two events that differ in nothing but this (and have the same
    template name) have the same descriptions. *)
Theorem X4_table_rows_are_ambiguous (event : ResultEvent)
    (k1 k2 v out : string) :
  format_GetMatchedTemplate (with_Info {[ k1 +:+ " | " +:+ k2 := v ]} event) =
  format_GetMatchedTemplate (with_Info {[ k1 := k2 +:+ " | " +:+ v ]} event) →
  jiraFormatDescription_returns
    (with_Info {[ k1 +:+ " | " +:+ k2 := v ]} event) out ↔
  jiraFormatDescription_returns
    (with_Info {[ k1 := k2 +:+ " | " +:+ v ]} event) out.
Proof.
  intros Htemplate.
  assert (Hrow : info_row (k1 +:+ " | " +:+ k2, v) =
                 info_row (k1, k2 +:+ " | " +:+ v)).
  { unfold info_row. simpl. by rewrite !append_assoc. }
  split; intros ([rows items] & [Hinfo Hmeta] & ->);
    apply range_of_singleton in Hinfo; simpl in Hinfo, Hmeta; subst rows.
  - exists {| info_range := [(k1, k2 +:+ " | " +:+ v)]; meta_range := items |}.
    split; [split; [by apply range_of_singleton|done]|].
    rewrite !jiraFormatDescription_with_Info, Htemplate. simpl info_range.
    rewrite !fmap_cons, Hrow. reflexivity.
  - exists {| info_range := [(k1 +:+ " | " +:+ k2, v)]; meta_range := items |}.
    split; [split; [by apply range_of_singleton|done]|].
    rewrite !jiraFormatDescription_with_Info, Htemplate. simpl info_range.
    rewrite !fmap_cons, Hrow. reflexivity.
Qed.

Lemma extra_information_length (ρ1 ρ2 : Ranges MetaValue)
    (event : ResultEvent) :
  meta_range ρ1 ≡ₚ meta_range ρ2 →
  String.length (extra_information ρ1 event) =
  String.length (extra_information ρ2 event).
Proof.
  intros Hperm. unfold extra_information, metadata_list.
  repeat case_bool_decide; simpl; [| done | | done];
    by rewrite !append_length, (join_length_perm _ _ _ Hperm).
Qed.

(** X5. All descriptions the formatter can return for an event have the
    same length: the order in which the maps are visited moves rows and
    items, it adds and removes no byte. *)
Theorem X5_length_independent_of_map_order (event : ResultEvent)
    (out1 out2 : string) :
  jiraFormatDescription_returns event out1 →
  jiraFormatDescription_returns event out2 →
  String.length out1 = String.length out2.
Proof.
  intros (ρ1 & [Hi1 Hm1] & ->) (ρ2 & [Hi2 Hm2] & ->).
  unfold range_of in *.
  assert (Hrows : info_range ρ1 ≡ₚ info_range ρ2) by by rewrite Hi1, Hi2.
  assert (Hitems : meta_range ρ1 ≡ₚ meta_range ρ2) by by rewrite Hm1, Hm2.
  rewrite !jiraFormatDescription_sections. unfold fixed_sections.
  rewrite !append_length.
  by rewrite (join_length_perm _ _ _ Hrows),
             (extra_information_length _ _ _ Hitems).
Qed.

End Formatter_more.


Section Formatter_blocks.

Context {Time MetaValue : Type} `{!Collaborators Time MetaValue}.

Abbreviation ResultEvent := (output.ResultEvent Time MetaValue).

(** The description of an event whose request and response texts were
    replaced. *)
Lemma jiraFormatDescription_with_texts (ρ : Ranges MetaValue)
    (request response : string) (event : ResultEvent) :
  jiraFormatDescription ρ (with_texts request response event) =
  ("*Details*: *" +:+
   format_GetMatchedTemplate (with_texts request response event) +:+
   "* " +:+ " matched at " +:+ output.Host event +:+
   protocol_line event +:+ url_line event +:+ timestamp_line event +:+
   table_heading +:+ join (info_row <$> info_range ρ) +:+
   nl +:+ "*Request*" +:+ nl +:+ nl +:+ "{code}" +:+ nl) +:+
  (request +:+ block_boundary +:+ response) +:+
  nl +:+ "{code}" +:+ nl +:+ nl +:+ extra_information ρ event.
Proof.
  rewrite jiraFormatDescription_sections.
  unfold fixed_sections, details_line, request_block, response_block,
    block_boundary.
  simpl. by rewrite !append_assoc.
Qed.

(** X11. The request and the response are written into their blocks
    without escaping, so the description does not determine where the
    request ends: a request text that holds the closing line of its block,
    the Response label and an opening [{code}] line gives the descriptions
    of the event whose response starts with the text after them. *)
Theorem X11_block_boundary_is_ambiguous (event : ResultEvent)
    (r1 r2 r3 out : string) :
  format_GetMatchedTemplate
    (with_texts (r1 +:+ block_boundary +:+ r2) r3 event) =
  format_GetMatchedTemplate
    (with_texts r1 (r2 +:+ block_boundary +:+ r3) event) →
  jiraFormatDescription_returns
    (with_texts (r1 +:+ block_boundary +:+ r2) r3 event) out ↔
  jiraFormatDescription_returns
    (with_texts r1 (r2 +:+ block_boundary +:+ r3) event) out.
Proof.
  intros Htemplate.
  split; intros (ρ & Hρ & ->); exists ρ; (split; [exact Hρ|]);
    rewrite !jiraFormatDescription_with_texts, Htemplate;
    by rewrite !append_assoc.
Qed.

End Formatter_blocks.

(** * Further properties of issue creation *)

(** Running a sequence of two programs: the second runs in the state the
    first left, and the requests add up. *)
Lemma run_Call_bind {A B} (p : Call A) (f : A → Call B) (t : Tracker)
    (w : tracker_state t) :
  run (Call_bind p f) t w =
  let '(a, sent1, w1) := run p t w in
  let '(b, sent2, w2) := run (f a) t w1 in
  (b, sent1 ++ sent2, w2).
Proof.
  revert w. induction p as [a|issueData k IH]; intros w; simpl.
  - by destruct (run (f a) t w) as [[b sent2] w2].
  - destruct (serve t issueData w) as [r w']. rewrite IH.
    destruct (run (k r) t w') as [[a sent1] w1].
    by destruct (run (f a) t w1) as [[b sent2] w2].
Qed.

Section Creation_more.

Context {Time MetaValue : Type} `{!Collaborators Time MetaValue}.

Abbreviation ResultEvent := (output.ResultEvent Time MetaValue).

(** What one call of [CreateIssue] does against a tracker. *)
Lemma run_CreateIssue (i : Integration) (ρ : Ranges MetaValue)
    (event : ResultEvent) (t : Tracker) (w : tracker_state t) :
  ∃ issueData,
    (run (CreateIssue i ρ event) t w).1.2 = [issueData] ∧
    (run (CreateIssue i ρ event) t w).2 = (serve t issueData w).2 ∧
    ((run (CreateIssue i ρ event) t w).1.1 = None ↔
     (serve t issueData w).1.2 = None) ∧
    ∀ ρ' w', ρ' = ρ → (run (CreateIssue i ρ' event) t w').1.2 = [issueData].
Proof.
  unfold CreateIssue.
  exists {|
    gojira.Fields := Some {|
      gojira.Assignee := Some {| gojira.AccountID := AccountID (options i) |};
      gojira.Reporter := Some {| gojira.AccountID := AccountID (options i) |};
      gojira.Description := jiraFormatDescription ρ event;
      gojira.Type_ := {| gojira.Name := IssueType (options i) |};
      gojira.Project_ := {| gojira.Key := ProjectName (options i) |};
      gojira.Summary := format_Summary event;
    |}
  |}.
  simpl. split; [|split; [|split]].
  - by destruct (serve t _ w) as [[[created resp] [err|]] w1].
  - by destruct (serve t _ w) as [[[created resp] [err|]] w1].
  - by destruct (serve t _ w) as [[[created resp] [err|]] w1].
  - intros ρ' w' ->. by destruct (serve t _ w') as [[[? ?] [?|]] ?].
Qed.

(** X6. [CreateIssue] returns an error exactly when the create call
    returned one, whatever issue and response came with it; the tracker is
    left in the state in which that one call left it. *)
Theorem X6_error_iff_create_failed (i : Integration) (ρ : Ranges MetaValue)
    (event : ResultEvent) (t : Tracker) (w : tracker_state t) :
  ∃ issueData,
    (run (CreateIssue i ρ event) t w).1.2 = [issueData] ∧
    ((run (CreateIssue i ρ event) t w).1.1 = None ↔
     (serve t issueData w).1.2 = None) ∧
    (run (CreateIssue i ρ event) t w).2 = (serve t issueData w).2.
Proof.
  destruct (run_CreateIssue i ρ event t w) as (d & Hsent & Hstate & Herr & _).
  by exists d.
Qed.

(** X7. Creating the issue for the same event twice sends two requests:
    the second call is served by the tracker in the state the first call
    left, its result is its own, and the request is sent again even when it
    is the very same as the first (same iteration order). *)
Theorem X7_twice_sends_two_requests (i : Integration)
    (ρ1 ρ2 : Ranges MetaValue) (event : ResultEvent) (t : Tracker)
    (w : tracker_state t) :
  ∃ d1 d2,
    (run (CreateIssue i ρ1 event) t w).1.2 = [d1] ∧
    (run (CreateIssue i ρ2 event) t (serve t d1 w).2).1.2 = [d2] ∧
    run (CreateIssue_twice i ρ1 ρ2 event) t w =
      (((run (CreateIssue i ρ1 event) t w).1.1,
        (run (CreateIssue i ρ2 event) t (serve t d1 w).2).1.1),
       [d1; d2],
       (serve t d2 (serve t d1 w).2).2) ∧
    (ρ1 = ρ2 → d1 = d2).
Proof.
  destruct (run_CreateIssue i ρ1 event t w)
    as (d1 & Hsent1 & Hstate1 & _ & Hsame).
  destruct (run_CreateIssue i ρ2 event t (serve t d1 w).2)
    as (d2 & Hsent2 & Hstate2 & _ & _).
  exists d1, d2. split; [done|]. split; [done|]. split.
  - unfold CreateIssue_twice. rewrite run_Call_bind.
    destruct (run (CreateIssue i ρ1 event) t w) as [[e1 sent1] w1].
    simpl in Hsent1, Hstate1. subst sent1 w1. rewrite run_Call_bind.
    destruct (run (CreateIssue i ρ2 event) t (serve t d1 w).2)
      as [[e2 sent2] w2].
    simpl in Hsent2, Hstate2. by subst sent2 w2.
  - intros Heq. specialize (Hsame ρ2 (serve t d1 w).2 (eq_sym Heq)).
    rewrite Hsent2 in Hsame. congruence.
Qed.


End Creation_more.

(** * Properties of the constructor *)

Section Constructor.

Context {Client Time MetaValue : Type} `{!Collaborators Time MetaValue}.

Variable jira_NewClient :
  auth.BasicAuthTransport → string → option Client * option error.

(** X9. [New] returns either an integration or an error, never both and
    never neither; the error is the one of [jira.NewClient], called on the
    transport with the e-mail address as user name and the token as
    password and on the configured URL; the integration holds the client of
    that call and the options unchanged. *)
Theorem X9_New_integration_or_error (options0 : Options) :
  let made :=
    jira_NewClient {| auth.Username := Email options0;
                      auth.Password := Token options0 |} (URL options0) in
  (New jira_NewClient options0).2 = made.2 ∧
  ((New jira_NewClient options0).1 = None ↔
   (New jira_NewClient options0).2 ≠ None) ∧
  (∀ client i, (New jira_NewClient options0).1 = Some (client, i) →
     client = made.1 ∧ options i = options0).
Proof.
  unfold New.
  destruct (jira_NewClient _ _) as [client [err|]]; simpl.
  - split; [done|]. split; [done|]. by intros ? ? [=].
  - split; [done|]. split.
    + split; [done|]. by intros [].
    + by intros ? ? [= <- <-].
Qed.

(** X10. An integration that [New] returned for some options creates
    issues with these options: the one request [CreateIssue] sends has the
    account id given to [New] as assignee and reporter, and the issue type
    and project name given to [New]. *)
Theorem X10_New_then_CreateIssue (options0 : Options) (client : option Client)
    (i : Integration) (ρ : Ranges MetaValue)
    (event : output.ResultEvent Time MetaValue) (t : Tracker)
    (w : tracker_state t) :
  (New jira_NewClient options0).1 = Some (client, i) →
  ∃ fields,
    (run (CreateIssue i ρ event) t w).1.2 =
      [ {| gojira.Fields := Some fields |} ] ∧
    gojira.Assignee fields =
      Some {| gojira.AccountID := AccountID options0 |} ∧
    gojira.Reporter fields =
      Some {| gojira.AccountID := AccountID options0 |} ∧
    gojira.Name (gojira.Type_ fields) = IssueType options0 ∧
    gojira.Key (gojira.Project_ fields) = ProjectName options0.
Proof.
  intros Hnew.
  assert (Hoptions : options i = options0).
  { unfold New in Hnew.
    destruct (jira_NewClient _ _) as [c [err|]]; simpl in Hnew; [done|].
    by injection Hnew as _ <-. }
  unfold CreateIssue. simpl. rewrite Hoptions.
  destruct (serve t _ w) as [[[created resp] [err|]] w']; simpl;
    (eexists; split; [reflexivity|]; by simpl).
Qed.

End Constructor.

(** * The further properties on the sample inputs *)

Lemma finding_has_metadata : output.Metadata sample.finding ≠ ∅.
Proof.
  intros Hempty. apply (f_equal (λ m, m !! "verified")) in Hempty.
  vm_compute in Hempty. discriminate Hempty.
Defined.

(** X1 on the sample finding. *)
Lemma X1_witness :
  ∃ rows items,
    rows ≡ₚ map_to_list (output.Info sample.finding) ∧
    items ≡ₚ map_to_list (output.Metadata sample.finding) ∧
    sample.finding_text =
      fixed_sections rows sample.finding +:+
      "*Extra Information*" +:+ nl +:+ nl +:+
      (match output.ExtractedResults sample.finding with
       | [] => EmptyString
       | _ :: _ => extracted_results_list sample.finding
       end) +:+
      "*Metadata*:" +:+ nl +:+ nl +:+
      join ((λ kv, "- " +:+ kv.1 +:+ ": " +:+ types_ToString kv.2 +:+ nl) <$>
            items) +:+
      nl.
Proof.
  exact (X1_metadata_list sample.finding sample.finding_text
           finding_has_metadata finding_returns).
Defined.

(** X3 on the sample finding. *)
Lemma X3_witness : ends_with sample.finding_text (nl +:+ nl).
Proof.
  exact (X3_ends_with_empty_line sample.finding sample.finding_text
           finding_returns).
Defined.

(** X4 on the sample finding with the entries [a | b : c] and
    [a : b | c]. *)
Lemma X4_witness :
  jiraFormatDescription_returns
    (with_Info {[ "a" +:+ " | " +:+ "b" := "c" ]} sample.finding)
    (jiraFormatDescription
       {| info_range := [("a | b", "c")];
          meta_range := [("verified", sample.VBool true)] |}
       (with_Info {[ "a" +:+ " | " +:+ "b" := "c" ]} sample.finding)) ↔
  jiraFormatDescription_returns
    (with_Info {[ "a" := "b" +:+ " | " +:+ "c" ]} sample.finding)
    (jiraFormatDescription
       {| info_range := [("a | b", "c")];
          meta_range := [("verified", sample.VBool true)] |}
       (with_Info {[ "a" +:+ " | " +:+ "b" := "c" ]} sample.finding)).
Proof.
  apply (X4_table_rows_are_ambiguous sample.finding "a" "b" "c").
  reflexivity.
Defined.

(** X5 on the two descriptions of [sample.labelled]. *)
Lemma X5_witness :
  String.length sample.author_first = String.length sample.severity_first.
Proof.
  exact (X5_length_independent_of_map_order sample.labelled
           sample.author_first sample.severity_first
           labelled_returns_author_first labelled_returns_severity_first).
Defined.


(** X10 on the sample configuration, the sample client constructor and the
    tracker that accepts every request. *)
Lemma X10_witness :
  ∃ fields,
    (run (CreateIssue sample.client sample.finding_ranges sample.finding)
         sample.accepting 0).1.2 =
      [ {| gojira.Fields := Some fields |} ] ∧
    gojira.Assignee fields =
      Some {| gojira.AccountID := AccountID sample.config |} ∧
    gojira.Reporter fields =
      Some {| gojira.AccountID := AccountID sample.config |} ∧
    gojira.Name (gojira.Type_ fields) = IssueType sample.config ∧
    gojira.Key (gojira.Project_ fields) = ProjectName sample.config.
Proof.
  apply (X10_New_then_CreateIssue sample_clients.new_client sample.config
           (Some ({| auth.Username := Email sample.config;
                     auth.Password := Token sample.config |},
                  URL sample.config))
           sample.client sample.finding_ranges sample.finding
           sample.accepting 0).
  reflexivity.
Defined.

(** X11 on the sample finding, with a request text that closes its own
    block. *)
Lemma X11_witness :
  jiraFormatDescription_returns
    (with_texts ("GET /" +:+ block_boundary +:+ "HTTP/1.1 500") "oops"
       sample.finding)
    (jiraFormatDescription sample.finding_ranges
       (with_texts ("GET /" +:+ block_boundary +:+ "HTTP/1.1 500") "oops"
          sample.finding)) ↔
  jiraFormatDescription_returns
    (with_texts "GET /" ("HTTP/1.1 500" +:+ block_boundary +:+ "oops")
       sample.finding)
    (jiraFormatDescription sample.finding_ranges
       (with_texts ("GET /" +:+ block_boundary +:+ "HTTP/1.1 500") "oops"
          sample.finding)).
Proof.
  apply (X11_block_boundary_is_ambiguous sample.finding
           "GET /" "HTTP/1.1 500" "oops").
  reflexivity.
Defined.
